(** * VirtualTable: the virtualized-scroll-window controller of [src/Table.tsx]

    A shallow embedding of the three pieces of [VirtualTable] that carry
    logic: the padding reconciler (lines 82-84 and the [tbody] of lines
    140-164), the scroll handler handed to the overlay (lines 91-115) and the
    attach effect with its cleanup (lines 117-123).

    Pixel offsets delivered by the virtualizer are integers in the
    fixed-height model ([estimateSize: () => 35]) and are modelled in [Z].
    Scroll offsets read from the DOM are arbitrary JavaScript numbers and are
    modelled as IEEE-754 values ([spec_float]), so that NaN, signed zeros and
    infinities are covered by the statements about the handler's guards. *)

From Stdlib Require Import ZArith Lia SpecFloat.
From stdpp Require Import base numbers list strings.

Local Open Scope Z_scope.

(** ** JavaScript idioms used by the component *)

Module JS.

(** [a ?? b]: the left operand unless it is [undefined]/[null]. *)
Definition nullish {A} (o : option A) (d : A) : A :=
  match o with
  | Some a => a
  | None => d
  end.

(** [o?.f]: property access that short-circuits on [undefined]/[null]. *)
Definition opt_chain {A B} (o : option A) (f : A -> B) : option B :=
  match o with
  | Some a => Some (f a)
  | None => None
  end.

(** [Array.prototype.at]: a negative index counts back from the end, an
    index outside the array yields [undefined]. *)
Definition Array_at {A} (l : list A) (i : Z) : option A :=
  let len := Z.of_nat (length l) in
  let k := if 0 <=? i then i else len + i in
  if (k <? 0) || (len <=? k) then None else l !! Z.to_nat k.

(** [arr[i]] for a numeric [i]: [undefined] outside [0 .. length-1]. *)
Definition Array_get {A} (l : list A) (i : Z) : option A :=
  if i <? 0 then None else l !! Z.to_nat i.

(** Exceptions the modelled code can raise. *)
Inductive Exn : Type :=
| TypeError (msg : string).

(** The result of evaluating a fallible expression. *)
Inductive Result (A : Type) : Type :=
| Ok (a : A)
| Throw (e : Exn).
Arguments Ok {A} a.
Arguments Throw {A} e.

Definition rbind {A B} (r : Result A) (k : A -> Result B) : Result B :=
  match r with
  | Ok a => k a
  | Throw e => Throw e
  end.

(** [arr.map(f)] where the callback may throw: elements are visited from
    left to right and the first exception aborts the whole call. *)
Fixpoint Array_map {A B} (f : A -> Result B) (l : list A) : Result (list B) :=
  match l with
  | [] => Ok []
  | x :: l' =>
      rbind (f x) (fun y => rbind (Array_map f l') (fun ys => Ok (y :: ys)))
  end.

End JS.

Import JS.

(** ** The virtualizer's outputs *)

(** A virtual item as read by the component: [index], [start], [end]. *)
Record VirtualItem : Type := mkItem {
  index : Z;
  start : Z;
  end_ : Z
}.

(** What [useVirtualizer] hands back to the component on one render: the
    window [getVirtualItems()] and the track height [getTotalSize()]. The
    virtualizer itself is an external primitive and stays a parameter. *)
Record Virtualizer : Type := mkVirtualizer {
  getVirtualItems : list VirtualItem;
  getTotalSize : Z
}.

(** [estimateSize: () => 35] and [overscan: 5] (lines 78-79). *)
Definition estimateSize : Z := 35.
Definition overscan : Z := 5.

(** The height every data row is rendered at: [style={{ height: 35 }}]. *)
Definition rowHeight : Z := 35.

(** ** Padding reconciler (lines 83-84) *)

Definition paddingTop (v : Virtualizer) : Z :=
  if (0 <? length (getVirtualItems v))%nat
  then nullish (opt_chain (Array_at (getVirtualItems v) 0) start) 0
  else 0.

Definition paddingBottom (v : Virtualizer) : Z :=
  if (0 <? length (getVirtualItems v))%nat
  then getTotalSize v - nullish (opt_chain (Array_at (getVirtualItems v) (-1)) end_) 0
  else 0.

(** Height of the rendered layout: leading spacer, one row of [rowHeight] per
    virtual item, trailing spacer. *)
Definition layoutHeight (v : Virtualizer) : Z :=
  paddingTop v + Z.of_nat (length (getVirtualItems v)) * rowHeight + paddingBottom v.

(** *** Shape of a window in the fixed-height model *)

(** Every item spans exactly the estimated height. *)
Definition uniform_items (its : list VirtualItem) : Prop :=
  Forall (fun it => end_ it = start it + estimateSize) its.

(** Each item starts where its predecessor ends. *)
Fixpoint contiguous (its : list VirtualItem) : Prop :=
  match its with
  | [] => True
  | it :: rest =>
      match rest with
      | [] => True
      | nxt :: _ => start nxt = end_ it /\ contiguous rest
      end
  end.

(** The window of [n] rows starting at row [first], as the fixed-height model
    lays it out: row [i] occupies [i * 35 .. (i + 1) * 35]. *)
Definition fixed_window (first n : nat) : list VirtualItem :=
  map (fun i => mkItem (Z.of_nat i) (Z.of_nat i * estimateSize)
                       ((Z.of_nat i + 1) * estimateSize))
      (seq first n).

(** ** Rendering of the table body (lines 140-164) *)

(** What the table library exposes of a row to the render loop: [row.id] and
    [row.getVisibleCells()], each cell with its [id] and its rendered
    content. *)
Record Cell : Type := mkCell {
  cell_id : string;
  cell_content : string
}.

Record Row : Type := mkRow {
  id : string;
  getVisibleCells : list Cell
}.

(** A [<td key=...>] and the two kinds of [<tr>] the body is made of. *)
Record Td : Type := mkTd {
  td_key : string;
  td_content : string
}.

Inductive Tr : Type :=
| SpacerTr (height : Z)
| DataTr (key : string) (height : Z) (tds : list Td).

(** A JSX child expression of [<tbody>]: [cond && <tr/>] evaluates to [false]
    or to the element, [items.map(...)] to an array of elements. *)
Inductive Child : Type :=
| JsxFalse
| JsxElem (t : Tr)
| JsxArray (ts : list Tr).

Definition jsx_and (c : bool) (t : Tr) : Child :=
  if c then JsxElem t else JsxFalse.

(** React drops boolean children and flattens arrays. *)
Definition mounted (c : Child) : list Tr :=
  match c with
  | JsxFalse => []
  | JsxElem t => [t]
  | JsxArray ts => ts
  end.

(** The callback of [getVirtualItems().map] (lines 147-157). Reading [row.id]
    when [rows[virtualRow.index]] is [undefined] raises a [TypeError]. *)
Definition renderRow (rows : list Row) (virtualRow : VirtualItem) : Result Tr :=
  match Array_get rows (index virtualRow) with
  | None => Throw (TypeError "row is undefined")
  | Some row =>
      Ok (DataTr (id row) rowHeight
                 (map (fun cell => mkTd (cell_id cell) (cell_content cell))
                      (getVisibleCells row)))
  end.

Definition tbody (rows : list Row) (v : Virtualizer) : Result (list Tr) :=
  let top := jsx_and (0 <? paddingTop v) (SpacerTr (paddingTop v)) in
  rbind (Array_map (renderRow rows) (getVirtualItems v)) (fun body =>
  let bottom := jsx_and (0 <? paddingBottom v) (SpacerTr (paddingBottom v)) in
  Ok (mounted top ++ mounted (JsxArray body) ++ mounted bottom)).

Definition is_spacer (t : Tr) : bool :=
  match t with
  | SpacerTr _ => true
  | DataTr _ _ _ => false
  end.

Definition tr_height (t : Tr) : Z :=
  match t with
  | SpacerTr h => h
  | DataTr _ h _ => h
  end.

(** Height taken by a list of rendered rows stacked on top of each other. *)
Definition stacked_height (trs : list Tr) : Z :=
  foldr (fun t acc => tr_height t + acc) 0 trs.

(** The [key] React sees on a mounted row; the spacer rows carry none. *)
Definition tr_key (t : Tr) : option string :=
  match t with
  | SpacerTr _ => None
  | DataTr k _ _ => Some k
  end.

Definition row_keys (trs : list Tr) : list string := omap tr_key trs.

(** The mounted rows that come from the render loop. *)
Definition data_rows (trs : list Tr) : list Tr :=
  filter (fun t => is_spacer t = false) trs.

(** The virtualizer's range contract: every item indexes an existing row. *)
Definition in_range (count : nat) (it : VirtualItem) : Prop :=
  0 <= index it < Z.of_nat count.

(** ** The dataset and the configured track (lines 17-26, 74-80) *)

Record Person : Type := mkPerson {
  firstName : string;
  lastName : string;
  age : Z;
  visits : Z;
  status : string;
  progress : Z
}.

Section Dataset.

(** [generatePerson] draws from faker; the record produced by the [k]-th
    call is left arbitrary. *)
Variable generatePerson : nat -> Person.

(** [Array.from({ length: 10000 }, () => generatePerson())]. *)
Definition data : list Person :=
  map generatePerson (seq 0 (Z.to_nat 10000)).

(** [getCoreRowModel()]: one row per record, in order. *)
Variable coreRow : nat -> Person -> Row.

Definition table_rows : list Row := imap coreRow data.

(** [count: rows.length]. *)
Definition count : Z := Z.of_nat (length table_rows).

End Dataset.

(** Modelled from the spec: [getTotalSize()] belongs to the external
    virtualizer; its value in the fixed-height model is
    totalTrackHeight = rowCount x estimatedRowHeight. *)
Definition totalTrackHeight (rowCount estimatedRowHeight : Z) : Z :=
  rowCount * estimatedRowHeight.

(** ** Scroll state and the overlay's scroll handler (lines 91-115) *)

(** A JavaScript number. *)
Definition number : Type := spec_float.

Definition zero : number := S754_zero false.

(** [a > b] and [a === b] on numbers: IEEE comparison, false on NaN, with
    [+0 === -0]. *)
Definition js_gt (a b : number) : bool := SFltb b a.
Definition js_strict_eq (a b : number) : bool := SFeqb a b.

Record ScrollState : Type := mkScrollState {
  scrollX : number;
  scrollY : number;
  lastScrollXTime : Z;
  lastScrollYTime : Z
}.

(** The initial value given to [useState]. *)
Definition initialScrollState : ScrollState :=
  mkScrollState zero zero 0 0.

(** What the handler reads: the offsets of [scrollEventElement] and, inside
    the updaters, the clock [Date.now()]. *)
Record ScrollEvent : Type := mkScrollEvent {
  scrollLeft : number;
  scrollTop : number;
  now : Z
}.

(** The condition of both [if]s, as written, with [v] the offset just read. *)
Definition edge_guard (v : number) : bool :=
  (js_gt v zero && js_strict_eq v zero) || (js_strict_eq v zero && js_gt v zero).

(** The handler: [Some u] when it calls [setScrollState(u)], [None] when it
    falls through both [if]s. *)
Definition onScroll (e : ScrollEvent) : option (ScrollState -> ScrollState) :=
  let x := scrollLeft e in
  let y := scrollTop e in
  if edge_guard x then
    Some (fun prev =>
            mkScrollState x (scrollY prev) (now e) (lastScrollYTime prev))
  else if edge_guard y then
    Some (fun prev =>
            mkScrollState (scrollX prev) y (lastScrollXTime prev) (now e))
  else None.

(** [setScrollState] with a functional updater. *)
Definition deliver (st : ScrollState) (e : ScrollEvent) : ScrollState :=
  match onScroll e with
  | Some u => u st
  | None => st
  end.

Definition deliver_all (st : ScrollState) (es : list ScrollEvent) : ScrollState :=
  foldl deliver st es.

(** What the spec asks of [onScroll]: the state carries the offsets just read
    and the capture time. Used only to exhibit the divergence. *)
Definition records_event (st : ScrollState) (e : ScrollEvent) : Prop :=
  (scrollX st = scrollLeft e /\ lastScrollXTime st = now e) \/
  (scrollY st = scrollTop e /\ lastScrollYTime st = now e).

(** A vertical scroll to offset 120 (the double [15 * 2^3]), observed at
    clock reading 1700000000000. *)
Definition scroll_to_120 : ScrollEvent :=
  mkScrollEvent zero (S754_finite false 8444249301319680 (-46)) 1700000000000.

(** ** The overlay scrollbar and its lifecycle (lines 98-123) *)

Module Overlay.

(** A DOM element, known by its identity. *)
Record Element : Type := mkElement { node : positive }.

(** An overlay instance: the elements it was attached to and whether
    [destroy()] has released it. *)
Record OsInstance : Type := mkInstance {
  os_target : Element;
  os_viewport : Element;
  destroyed : bool
}.

(** Invocations of the overlay primitive, as observed from outside. *)
Inductive Call : Type :=
| CallInitialize (target viewport : Element)
| CallDestroy (handle : nat).

(** Everything the effect and its cleanup can read or change: the two
    element refs, the scroll state, the store of overlay instances ever
    created, the hook's instance ref (what [osInstance()] returns, a handle
    into the store) and the log of invocations, oldest first. *)
Record World : Type := mkWorld {
  scrollRef : option Element;
  parentRef : option Element;
  scrollState : ScrollState;
  instances : list OsInstance;
  instanceRef : option nat;
  calls : list Call
}.

(** Computations over the world that may raise. *)
Definition M (A : Type) : Type := World -> Result (A * World).

Definition ret {A} (a : A) : M A := fun w => Ok (a, w).

Definition bind {A B} (m : M A) (k : A -> M B) : M B :=
  fun w =>
    match m w with
    | Ok (a, w') => k a w'
    | Throw e => Throw e
    end.

Notation "x <- m ;; k" := (bind m (fun x => k))
  (at level 100, m at next level, right associativity).
Notation "m ;;; k" := (bind m (fun _ => k))
  (at level 100, right associativity).

Definition read {A} (f : World -> A) : M A := fun w => Ok (f w, w).

Definition log (c : Call) (w : World) : World :=
  mkWorld (scrollRef w) (parentRef w) (scrollState w) (instances w)
          (instanceRef w) (calls w ++ [c]).

Definition live (i : OsInstance) : bool := negb (destroyed i).

Definition release (i : OsInstance) : OsInstance :=
  mkInstance (os_target i) (os_viewport i) true.

(** [OverlayScrollbars.valid(instanceRef.current)]. *)
Definition has_valid_instance (w : World) : bool :=
  match instanceRef w with
  | Some h =>
      match instances w !! h with
      | Some i => live i
      | None => false
      end
  | None => false
  end.

(** Modelled from the spec: the overlay primitive is external. [initialize]
    needs both elements to exist in the layout tree and raises when handed
    an unset one; with [defer: false] it creates the instance at once and
    stores it in the hook's ref; re-invocation while a valid instance is
    held is a no-op. *)
Definition initialize (target viewport : option Element) : M unit :=
  fun w =>
    match target, viewport with
    | Some t, Some vp =>
        let w1 := log (CallInitialize t vp) w in
        if has_valid_instance w then Ok (tt, w1)
        else Ok (tt, mkWorld (scrollRef w1) (parentRef w1) (scrollState w1)
                             (instances w1 ++ [mkInstance t vp false])
                             (Some (length (instances w1))) (calls w1))
    | _, _ => Throw (TypeError "cannot initialize on an unset element")
    end.

(** [osInstance()]: the instance held by the hook, if any. *)
Definition osInstance : M (option nat) := read instanceRef.

(** Modelled from the spec: the instance handle's [destroy()] release
    method. It marks the instance released in the store. *)
Definition destroy (h : nat) : M unit :=
  fun w =>
    let w1 := log (CallDestroy h) w in
    Ok (tt, mkWorld (scrollRef w1) (parentRef w1) (scrollState w1)
                    (alter release h (instances w1))
                    (instanceRef w1) (calls w1)).

(** [recv?.method()]: no call at all when the receiver is unset. *)
Definition opt_call {A} (recv : option A) (method : A -> M unit) : M unit :=
  match recv with
  | Some a => method a
  | None => ret tt
  end.

(** Truthiness of a ref's [current]: [null] is falsy, an element truthy. *)
Definition truthy (o : option Element) : bool :=
  match o with
  | Some _ => true
  | None => false
  end.

(** The function returned by the effect: [() => osInstance()?.destroy()]. *)
Definition cleanup : M unit :=
  inst <- osInstance ;;
  opt_call inst destroy.

(** The body of [useEffect] (lines 117-123); its value is the cleanup. *)
Definition attachEffect : M (M unit) :=
  s <- read scrollRef ;;
  p <- read parentRef ;;
  (if truthy s && truthy p then initialize s p else ret tt) ;;;
  ret cleanup.

(** A scroll event reaching the handler registered with the overlay. *)
Definition dispatch (e : ScrollEvent) : M unit :=
  fun w =>
    Ok (tt, mkWorld (scrollRef w) (parentRef w) (deliver (scrollState w) e)
                    (instances w) (instanceRef w) (calls w)).

Fixpoint dispatch_all (es : list ScrollEvent) : M unit :=
  match es with
  | [] => ret tt
  | e :: es' => dispatch e ;;; dispatch_all es'
  end.

(** The component's world right after the first commit: refs as the
    renderer left them, nothing attached yet. *)
Definition mount (s p : option Element) : World :=
  mkWorld s p initialScrollState [] None [].

(** One mount/unmount cycle: the effect runs once (its dependencies
    [initialize] and [osInstance] are stable), scroll events arrive, and
    React runs the cleanup on unmount. *)
Definition lifecycle (es : list ScrollEvent) : M unit :=
  teardown <- attachEffect ;;
  dispatch_all es ;;;
  teardown.

Definition is_destroy (c : Call) : bool :=
  match c with
  | CallDestroy _ => true
  | CallInitialize _ _ => false
  end.

Definition is_initialize (c : Call) : bool :=
  match c with
  | CallInitialize _ _ => true
  | CallDestroy _ => false
  end.

Definition destroy_count (w : World) : nat :=
  length (filter (fun c => is_destroy c = true) (calls w)).

Definition initialize_count (w : World) : nat :=
  length (filter (fun c => is_initialize c = true) (calls w)).

(** The overlay instances that have not been released. *)
Definition surviving (w : World) : list OsInstance :=
  filter (fun i => live i = true) (instances w).

(** [n] successive attach/teardown cycles over the same hook state, as when
    React re-runs the effect of a component that stays mounted. *)
Fixpoint cycles (n : nat) (es : list ScrollEvent) : M unit :=
  match n with
  | O => ret tt
  | S n' => lifecycle es ;;; cycles n' es
  end.

End Overlay.

(** ** Sample inputs *)

(** A three-row table scrolled so that only its middle row is in the window. *)
Definition sample_rows : list Row :=
  [ mkRow "0" [mkCell "0_firstName" "Ada"];
    mkRow "1" [mkCell "1_firstName" "Bob"];
    mkRow "2" [mkCell "2_firstName" "Cyd"] ].

Definition sample_window : Virtualizer :=
  mkVirtualizer (fixed_window 1 1) (totalTrackHeight 3 estimateSize).

Definition sample_body : list Tr :=
  [ SpacerTr 35; DataTr "1" 35 [mkTd "1_firstName" "Bob"]; SpacerTr 35 ].

(** The same table with all three rows in the window. *)
Definition sample_full_window : Virtualizer :=
  mkVirtualizer (fixed_window 0 3) (totalTrackHeight 3 estimateSize).

Definition sample_full_body : list Tr :=
  [ DataTr "0" 35 [mkTd "0_firstName" "Ada"];
    DataTr "1" 35 [mkTd "1_firstName" "Bob"];
    DataTr "2" 35 [mkTd "2_firstName" "Cyd"] ].

(** * Properties *)

(** ** Array access *)

Section ArrayFacts.

Context {A : Type}.
Implicit Types (l : list A) (x : A).

Lemma Array_at_first x l : Array_at (x :: l) 0 = Some x.
Proof.
  unfold Array_at. cbn [length].
  replace (Z.of_nat (S (length l)) <=? 0) with false by (symmetry; apply Z.leb_gt; lia).
  reflexivity.
Qed.

Lemma Array_at_minus_one l : Array_at l (-1) = last l.
Proof.
  unfold Array_at. cbn zeta.
  replace (0 <=? -1) with false by reflexivity.
  destruct l as [|x l'].
  - reflexivity.
  - replace (Z.of_nat (length (x :: l')) + -1 <? 0) with false
      by (symmetry; apply Z.ltb_ge; cbn [length]; lia).
    replace (Z.of_nat (length (x :: l')) <=? Z.of_nat (length (x :: l')) + -1)
      with false by (symmetry; apply Z.leb_gt; lia).
    cbn [orb]. rewrite last_lookup. f_equal. cbn [length]. lia.
Qed.

Lemma last_shift_default l x d : List.last (x :: l) d = List.last l x.
Proof.
  revert x d. induction l as [|y l IH]; intros x d; [reflexivity|].
  change (List.last (x :: y :: l) d) with (List.last (y :: l) d).
  rewrite (IH y d), (IH y x). reflexivity.
Qed.

Lemma last_cons_default x l : last (x :: l) = Some (List.last l x).
Proof.
  revert x. induction l as [|y l IH]; intros x; [reflexivity|].
  rewrite last_cons_cons, IH, last_shift_default. reflexivity.
Qed.

Lemma Array_get_in_range l (i : Z) :
  0 <= i < Z.of_nat (length l) -> is_Some (Array_get l i).
Proof.
  intros [Hlo Hhi]. unfold Array_get.
  replace (i <? 0) with false by (symmetry; apply Z.ltb_ge; lia).
  apply lookup_lt_is_Some. lia.
Qed.

End ArrayFacts.

(** ** Padding reconciler *)

Lemma paddingTop_empty total : paddingTop (mkVirtualizer [] total) = 0.
Proof. reflexivity. Qed.

Lemma paddingBottom_empty total : paddingBottom (mkVirtualizer [] total) = 0.
Proof. reflexivity. Qed.

Lemma paddingTop_cons it rest total :
  paddingTop (mkVirtualizer (it :: rest) total) = start it.
Proof.
  unfold paddingTop. cbn [getVirtualItems length Nat.ltb Nat.leb].
  rewrite Array_at_first. reflexivity.
Qed.

Lemma paddingBottom_cons it rest total :
  paddingBottom (mkVirtualizer (it :: rest) total)
  = total - end_ (List.last rest it).
Proof.
  unfold paddingBottom. cbn [getVirtualItems getTotalSize length Nat.ltb Nat.leb].
  rewrite Array_at_minus_one, last_cons_default. reflexivity.
Qed.

(** In a uniform, contiguous window the last item ends one row height per
    item below the start of the first. *)
Lemma window_span it rest :
  uniform_items (it :: rest) ->
  contiguous (it :: rest) ->
  end_ (List.last rest it)
  = start it + Z.of_nat (length (it :: rest)) * estimateSize.
Proof.
  revert it. induction rest as [|nxt rest IH]; intros it Hu Hc.
  - apply Forall_inv in Hu. cbn. lia.
  - pose proof (Forall_inv Hu) as Hit. apply Forall_inv_tail in Hu.
    destruct Hc as [Hstart Hc].
    rewrite last_shift_default, (IH nxt Hu Hc), Hstart, Hit.
    cbn [length]. lia.
Qed.

Lemma fixed_window_uniform first n : uniform_items (fixed_window first n).
Proof.
  unfold uniform_items, fixed_window. apply Forall_map, Forall_forall.
  intros i _. cbn. lia.
Qed.

Lemma fixed_window_contiguous first n : contiguous (fixed_window first n).
Proof.
  revert first. induction n as [|n IH]; intros first; [exact I|].
  specialize (IH (S first)). unfold fixed_window in *. cbn [seq map] in *.
  destruct n as [|n]; [exact I|].
  cbn [seq map] in *. split; [cbn; lia|exact IH].
Qed.

(** C4. A non-empty window has [paddingTop] equal to the start offset of its
    first item and [paddingBottom] equal to the track height minus the end
    offset of its last item; an empty window has both paddings equal to 0. *)
Theorem padding_of_window (v : Virtualizer) :
  match getVirtualItems v with
  | [] => paddingTop v = 0 /\ paddingBottom v = 0
  | first :: rest =>
      paddingTop v = start first /\
      paddingBottom v = getTotalSize v - end_ (List.last rest first)
  end.
Proof.
  destruct v as [its total]. cbn [getVirtualItems getTotalSize].
  destruct its as [|first rest].
  - split; reflexivity.
  - split; [apply paddingTop_cons | apply paddingBottom_cons].
Qed.

(** C1 (as amended). For every window of equal 35-pixel items in which each
    item starts where the previous one ends: when the window is non-empty,
    paddingTop + 35 * (number of rendered rows) + paddingBottom equals the
    total track height; when it is empty, paddingTop is 0, paddingBottom is 0
    and the sum is 0. *)
Theorem layout_fills_track (v : Virtualizer) :
  uniform_items (getVirtualItems v) ->
  contiguous (getVirtualItems v) ->
  match getVirtualItems v with
  | [] => paddingTop v = 0 /\ paddingBottom v = 0 /\ layoutHeight v = 0
  | _ :: _ => layoutHeight v = getTotalSize v
  end.
Proof.
  destruct v as [its total]. cbn [getVirtualItems getTotalSize].
  intros Hu Hc. destruct its as [|it rest].
  - split; [apply paddingTop_empty|].
    split; [apply paddingBottom_empty|].
    unfold layoutHeight.
    rewrite paddingTop_empty, paddingBottom_empty. reflexivity.
  - unfold layoutHeight. rewrite paddingTop_cons, paddingBottom_cons.
    cbn [getVirtualItems]. rewrite (window_span it rest Hu Hc).
    unfold rowHeight, estimateSize. lia.
Qed.

Lemma layout_fills_track_witness :
  let v := mkVirtualizer (fixed_window 2 3) 350000 in
  let v0 := mkVirtualizer [] 350000 in
  (uniform_items (getVirtualItems v) /\
   contiguous (getVirtualItems v) /\
   layoutHeight v = 350000) /\
  (uniform_items (getVirtualItems v0) /\
   contiguous (getVirtualItems v0) /\
   paddingTop v0 = 0 /\ paddingBottom v0 = 0 /\ layoutHeight v0 = 0).
Proof.
  cbn zeta. split.
  - split; [|split].
    + apply fixed_window_uniform.
    + apply fixed_window_contiguous.
    + apply (layout_fills_track (mkVirtualizer (fixed_window 2 3) 350000)).
      * apply fixed_window_uniform.
      * apply fixed_window_contiguous.
  - split; [constructor|]. split; [exact I|].
    apply (layout_fills_track (mkVirtualizer [] 350000)).
    + constructor.
    + exact I.
Defined.

(** C1 (as stated) fails on the empty window the component meets before the
    scroll element is laid out: the track is 350000 pixels high, both
    paddings are 0 and no row is rendered. *)
Lemma empty_window_leaves_track_unfilled :
  let v := mkVirtualizer [] (totalTrackHeight 10000 estimateSize) in
  uniform_items (getVirtualItems v) /\
  contiguous (getVirtualItems v) /\
  layoutHeight v <> getTotalSize v.
Proof.
  cbn zeta. split; [|split].
  - constructor.
  - exact I.
  - vm_compute. discriminate.
Qed.

(** ** Rendering of the table body *)

Lemma renderRow_data rows it t :
  renderRow rows it = Ok t -> is_spacer t = false /\ tr_height t = rowHeight.
Proof.
  unfold renderRow. destruct (Array_get rows (index it)); [|discriminate].
  intros [= <-]. split; reflexivity.
Qed.

Lemma renderRow_in_range rows it :
  in_range (length rows) it -> exists t, renderRow rows it = Ok t.
Proof.
  intros Hr. unfold renderRow.
  destruct (Array_get_in_range rows (index it) Hr) as [row ->]. eauto.
Qed.

(** A successful [map] yields one data row per virtual item. *)
Lemma Array_map_renderRow rows its body :
  Array_map (renderRow rows) its = Ok body ->
  length body = length its /\ Forall (fun t => is_spacer t = false) body.
Proof.
  revert body. induction its as [|it its IH]; intros body; cbn [Array_map].
  - intros [= <-]. split; [reflexivity|constructor].
  - destruct (renderRow rows it) as [t|e] eqn:Ht; cbn [rbind]; [|discriminate].
    destruct (Array_map (renderRow rows) its) as [ts|e]; cbn [rbind]; [|discriminate].
    intros [= <-]. destruct (IH ts eq_refl) as [Hlen Hall].
    split; [cbn [length]; congruence|].
    constructor; [exact (proj1 (renderRow_data _ _ _ Ht))|exact Hall].
Qed.

Lemma Array_map_in_range rows its :
  Forall (in_range (length rows)) its ->
  exists body, Array_map (renderRow rows) its = Ok body.
Proof.
  induction 1 as [|it its Hit _ [body IH]]; cbn [Array_map]; [eauto|].
  destruct (renderRow_in_range rows it Hit) as [t ->].
  rewrite IH. cbn [rbind]. eauto.
Qed.

(** The children of [<tbody>], in order, whenever rendering succeeds. *)
Lemma tbody_shape rows v trs :
  tbody rows v = Ok trs ->
  exists body,
    length body = length (getVirtualItems v) /\
    Forall (fun t => is_spacer t = false) body /\
    trs = (if 0 <? paddingTop v then [SpacerTr (paddingTop v)] else [])
          ++ body
          ++ (if 0 <? paddingBottom v then [SpacerTr (paddingBottom v)] else []).
Proof.
  unfold tbody.
  destruct (Array_map (renderRow rows) (getVirtualItems v)) as [body|e] eqn:Hb;
    cbn [rbind]; [|discriminate].
  intros [= <-]. exists body.
  destruct (Array_map_renderRow _ _ _ Hb) as [Hlen Hall].
  repeat split; [exact Hlen|exact Hall|].
  unfold jsx_and. destruct (0 <? paddingTop v), (0 <? paddingBottom v); reflexivity.
Qed.

Lemma no_items_no_padding v :
  length (getVirtualItems v) = 0%nat -> paddingTop v = 0 /\ paddingBottom v = 0.
Proof.
  intros H. unfold paddingTop, paddingBottom. rewrite H. split; reflexivity.
Qed.

Lemma data_rows_no_spacer (body : list Tr) h :
  Forall (fun t => is_spacer t = false) body -> SpacerTr h ∉ body.
Proof.
  intros Hdata Hin. rewrite Forall_forall in Hdata.
  specialize (Hdata _ Hin). discriminate.
Qed.

Lemma data_rows_filter (body : list Tr) :
  Forall (fun t => is_spacer t = false) body ->
  filter (fun t => is_spacer t = true) body = [].
Proof.
  induction 1 as [|t ts Ht _ IH]; [reflexivity|].
  rewrite filter_cons_False by congruence. exact IH.
Qed.

Section BodyShape.

(** The body as [tbody_shape] describes it: the rows rendered from the
    virtual items between the two optional spacers. *)
Variables (pt pb : Z) (body : list Tr).
Hypothesis body_data : Forall (fun t => is_spacer t = false) body.
Hypothesis body_empty : body = [] -> pt = 0 /\ pb = 0.

Abbreviation top := (if 0 <? pt then [SpacerTr pt] else []).
Abbreviation bottom := (if 0 <? pb then [SpacerTr pb] else []).

Lemma leading_spacer_iff :
  0 < pt <-> head (top ++ body ++ bottom) = Some (SpacerTr pt).
Proof.
  destruct (Z.ltb_spec 0 pt) as [Hpt|Hpt].
  - split; [reflexivity|intros _; exact Hpt].
  - split; [lia|]. cbn [app]. destruct body as [|t ts] eqn:Hb.
    + destruct (body_empty eq_refl) as [_ ->]. discriminate.
    + cbn [app head]. intros [= ->].
      apply Forall_inv in body_data. discriminate.
Qed.

Lemma trailing_spacer_iff :
  0 < pb <-> last (top ++ body ++ bottom) = Some (SpacerTr pb).
Proof.
  destruct (Z.ltb_spec 0 pb) as [Hpb|Hpb].
  - split; [|intros _; exact Hpb]. intros _.
    rewrite app_assoc, last_snoc. reflexivity.
  - split; [lia|]. rewrite app_nil_r.
    destruct body as [|t ts _] eqn:Hb using rev_ind.
    + destruct (body_empty eq_refl) as [-> _]. discriminate.
    + rewrite app_assoc, last_snoc. intros [= ->].
      apply Forall_app in body_data as [_ Hlast].
      apply Forall_inv in Hlast. discriminate.
Qed.

Lemma spacers_are_positive h :
  SpacerTr h ∈ top ++ body ++ bottom -> 0 < h.
Proof.
  intros Hin.
  apply elem_of_app in Hin as [Hin|Hin];
    [|apply elem_of_app in Hin as [Hin|Hin]].
  - destruct (Z.ltb_spec 0 pt) as [Hpt|Hpt].
    + apply list_elem_of_singleton in Hin as [= ->]. exact Hpt.
    + apply elem_of_nil in Hin. destruct Hin.
  - destruct (data_rows_no_spacer body _ body_data Hin).
  - destruct (Z.ltb_spec 0 pb) as [Hpb|Hpb].
    + apply list_elem_of_singleton in Hin as [= ->]. exact Hpb.
    + apply elem_of_nil in Hin. destruct Hin.
Qed.

Lemma spacer_count :
  length (filter (fun t => is_spacer t = true) (top ++ body ++ bottom))
  = Nat.add (if 0 <? pt then 1%nat else 0%nat)
            (if 0 <? pb then 1%nat else 0%nat).
Proof.
  rewrite !filter_app, (data_rows_filter body body_data), !length_app.
  destruct (0 <? pt), (0 <? pb); reflexivity.
Qed.

End BodyShape.

Lemma stacked_height_app (ts1 ts2 : list Tr) :
  stacked_height (ts1 ++ ts2) = stacked_height ts1 + stacked_height ts2.
Proof.
  unfold stacked_height. induction ts1 as [|t ts1 IH]; cbn [app foldr]; lia.
Qed.

Lemma Array_map_renderRow_height rows its body :
  Array_map (renderRow rows) its = Ok body ->
  stacked_height body = Z.of_nat (length its) * rowHeight.
Proof.
  revert body. induction its as [|it its IH]; intros body; cbn [Array_map].
  - intros [= <-]. reflexivity.
  - destruct (renderRow rows it) as [t|e] eqn:Ht; cbn [rbind]; [|discriminate].
    destruct (Array_map (renderRow rows) its) as [ts|e]; cbn [rbind]; [|discriminate].
    intros [= <-]. destruct (renderRow_data _ _ _ Ht) as [_ Hh].
    unfold stacked_height in *. cbn [foldr length].
    rewrite (IH ts eq_refl), Hh. lia.
Qed.

(** What is mounted really is as high as [layoutHeight] says, provided the
    paddings are not negative (a negative padding mounts no spacer). *)
Lemma rendered_height rows v trs :
  tbody rows v = Ok trs ->
  0 <= paddingTop v -> 0 <= paddingBottom v ->
  stacked_height trs = layoutHeight v.
Proof.
  unfold tbody, layoutHeight.
  destruct (Array_map (renderRow rows) (getVirtualItems v)) as [body|e] eqn:Hb;
    cbn [rbind]; [|discriminate].
  intros [= <-] Htop Hbottom.
  rewrite !stacked_height_app, (Array_map_renderRow_height _ _ _ Hb).
  unfold jsx_and.
  destruct (Z.ltb_spec 0 (paddingTop v)), (Z.ltb_spec 0 (paddingBottom v));
    cbn [mounted stacked_height foldr tr_height]; lia.
Qed.

(** C7. In the rendered body the leading spacer row is present exactly when
    [paddingTop > 0] and the trailing one exactly when [paddingBottom > 0];
    these are the only spacers, so none of height 0 is ever rendered. *)
Theorem spacer_iff_positive (rows : list Row) (v : Virtualizer) (trs : list Tr) :
  tbody rows v = Ok trs ->
  (0 < paddingTop v <-> head trs = Some (SpacerTr (paddingTop v))) /\
  (0 < paddingBottom v <-> last trs = Some (SpacerTr (paddingBottom v))) /\
  (forall h, SpacerTr h ∈ trs -> 0 < h) /\
  length (filter (fun t => is_spacer t = true) trs)
  = Nat.add (if 0 <? paddingTop v then 1%nat else 0%nat)
            (if 0 <? paddingBottom v then 1%nat else 0%nat).
Proof.
  intros Hrender.
  destruct (tbody_shape rows v trs Hrender) as (body & Hlen & Hdata & ->).
  assert (Hempty : body = [] -> paddingTop v = 0 /\ paddingBottom v = 0).
  { intros ->. apply no_items_no_padding. symmetry. exact Hlen. }
  split; [|split; [|split]].
  - apply leading_spacer_iff; assumption.
  - apply trailing_spacer_iff; assumption.
  - intros h. apply spacers_are_positive. exact Hdata.
  - apply spacer_count. exact Hdata.
Qed.

Lemma spacer_iff_positive_witness :
  tbody sample_rows sample_window = Ok sample_body /\
  (0 < paddingTop sample_window
   <-> head sample_body = Some (SpacerTr (paddingTop sample_window))) /\
  (0 < paddingBottom sample_window
   <-> last sample_body = Some (SpacerTr (paddingBottom sample_window))) /\
  (forall h, SpacerTr h ∈ sample_body -> 0 < h) /\
  length (filter (fun t => is_spacer t = true) sample_body)
  = Nat.add (if 0 <? paddingTop sample_window then 1%nat else 0%nat)
            (if 0 <? paddingBottom sample_window then 1%nat else 0%nat).
Proof.
  split.
  - reflexivity.
  - apply (spacer_iff_positive sample_rows sample_window sample_body).
    reflexivity.
Defined.

(** C8. With no rows, a virtualizer that honours its range contract returns
    an empty window; both paddings are then 0 and the rendered body holds
    neither spacer nor data row. *)
Theorem empty_table_renders_nothing (rows : list Row) (v : Virtualizer) :
  length rows = 0%nat ->
  Forall (in_range (length rows)) (getVirtualItems v) ->
  getVirtualItems v = [] /\
  paddingTop v = 0 /\
  paddingBottom v = 0 /\
  tbody rows v = Ok [].
Proof.
  intros Hcount Hrange.
  assert (Hitems : getVirtualItems v = []).
  { destruct (getVirtualItems v) as [|it its]; [reflexivity|].
    apply Forall_inv in Hrange. unfold in_range in Hrange. lia. }
  destruct (no_items_no_padding v) as [Htop Hbottom]; [rewrite Hitems; reflexivity|].
  repeat split; try assumption.
  unfold tbody. rewrite Hitems, Htop, Hbottom. reflexivity.
Qed.

Lemma empty_table_renders_nothing_witness :
  let v := mkVirtualizer [] (totalTrackHeight 0 estimateSize) in
  length (@nil Row) = 0%nat /\
  Forall (in_range (length (@nil Row))) (getVirtualItems v) /\
  getVirtualItems v = [] /\
  paddingTop v = 0 /\
  paddingBottom v = 0 /\
  tbody [] v = Ok [].
Proof.
  cbn zeta. split; [reflexivity|]. split; [constructor|].
  apply (empty_table_renders_nothing [] (mkVirtualizer [] (totalTrackHeight 0 estimateSize))).
  - reflexivity.
  - constructor.
Defined.

(** C10. When every virtual item's index lies in [0, rows.length), each
    lookup [rows[virtualRow.index]] yields a defined row, so the render loop
    raises no [TypeError] and the body is rendered. *)
Theorem render_loop_is_defined (rows : list Row) (v : Virtualizer) :
  Forall (in_range (length rows)) (getVirtualItems v) ->
  Forall (fun it => is_Some (Array_get rows (index it))) (getVirtualItems v) /\
  exists trs, tbody rows v = Ok trs.
Proof.
  intros Hrange. split.
  - eapply Forall_impl; [exact Hrange|].
    intros it Hit. apply Array_get_in_range. exact Hit.
  - destruct (Array_map_in_range rows _ Hrange) as [body Hbody].
    unfold tbody. rewrite Hbody. cbn [rbind]. eauto.
Qed.

Lemma render_loop_is_defined_witness :
  Forall (in_range (length sample_rows)) (getVirtualItems sample_window) /\
  Forall (fun it => is_Some (Array_get sample_rows (index it)))
         (getVirtualItems sample_window) /\
  exists trs, tbody sample_rows sample_window = Ok trs.
Proof.
  assert (Hrange : Forall (in_range (length sample_rows))
                          (getVirtualItems sample_window)).
  { repeat constructor; cbn; lia. }
  split; [exact Hrange|].
  apply (render_loop_is_defined sample_rows sample_window Hrange).
Defined.

(** Outside the range contract the loop does raise: the guard-free lookup is
    what makes the contract necessary. *)
Example render_loop_out_of_range :
  tbody sample_rows (mkVirtualizer [mkItem 3 105 140] 140)
  = Throw (TypeError "row is undefined").
Proof. reflexivity. Qed.

(** ** The configured track *)

Lemma data_length generatePerson : length (data generatePerson) = Z.to_nat 10000.
Proof. unfold data. rewrite length_map, length_seq. reflexivity. Qed.

(** C9. With the widget's configuration, 10000 generated records, an
    estimated row height of 35 and an overscan of 5, the fixed-height track
    rowCount x estimatedRowHeight is exactly 350000 pixels high. *)
Theorem configured_track_height
    (generatePerson : nat -> Person) (coreRow : nat -> Person -> Row) :
  count generatePerson coreRow = 10000 /\
  estimateSize = 35 /\
  overscan = 5 /\
  totalTrackHeight (count generatePerson coreRow) estimateSize = 350000.
Proof.
  assert (Hcount : count generatePerson coreRow = 10000).
  { unfold count, table_rows. rewrite length_imap, data_length. lia. }
  rewrite Hcount. repeat split.
Qed.

(** ** Scroll handler *)

Lemma edge_guard_false (v : number) : edge_guard v = false.
Proof.
  unfold edge_guard, js_gt, js_strict_eq, zero.
  destruct v as [s|s| |s m e]; try destruct s; reflexivity.
Qed.

Lemma onScroll_none (e : ScrollEvent) : onScroll e = None.
Proof. unfold onScroll. rewrite !edge_guard_false. reflexivity. Qed.

Lemma deliver_id (st : ScrollState) (e : ScrollEvent) : deliver st e = st.
Proof. unfold deliver. rewrite onScroll_none. reflexivity. Qed.

Lemma deliver_all_id (st : ScrollState) (es : list ScrollEvent) :
  deliver_all st es = st.
Proof.
  unfold deliver_all. revert st.
  induction es as [|e es IH]; intros st; cbn [foldl]; [reflexivity|].
  rewrite deliver_id. apply IH.
Qed.

(** C3. The condition [(v > 0 && v === 0) || (v === 0 && v > 0)] is false for
    every number [v]; hence the handler never calls [setScrollState], and
    after any sequence of scroll events the scroll state is still its initial
    value. *)
Theorem scroll_state_never_changes :
  (forall v : number, edge_guard v = false) /\
  (forall e : ScrollEvent, onScroll e = None) /\
  (forall es : list ScrollEvent,
      deliver_all initialScrollState es = initialScrollState).
Proof.
  split; [exact edge_guard_false|].
  split; [exact onScroll_none|].
  intros es. apply deliver_all_id.
Qed.

(** C2. Evaluation of the handler on a vertical scroll to offset 120: no
    state update is requested, the state stays at its initial value and so
    carries neither the offset just read nor the capture time. *)
Theorem onScroll_drops_event :
  onScroll scroll_to_120 = None /\
  deliver initialScrollState scroll_to_120 = initialScrollState /\
  ~ records_event (deliver initialScrollState scroll_to_120) scroll_to_120 /\
  ~ exists (st : ScrollState) (e : ScrollEvent), deliver st e <> st.
Proof.
  split; [reflexivity|]. split; [reflexivity|]. split.
  - intros [[_ Htime]|[Hoffset _]]; discriminate.
  - intros (st & e & Hchange). apply Hchange, deliver_id.
Qed.

(** ** Overlay lifecycle *)

Module OverlayFacts.
Import Overlay.

Lemma dispatch_all_spec (es : list ScrollEvent) (w : World) :
  dispatch_all es w
  = Ok (tt, mkWorld (scrollRef w) (parentRef w)
                    (deliver_all (scrollState w) es)
                    (instances w) (instanceRef w) (calls w)).
Proof.
  revert w. induction es as [|e es IH]; intros w.
  - destruct w; reflexivity.
  - cbn [dispatch_all]. unfold bind at 1. cbn [dispatch].
    rewrite IH. reflexivity.
Qed.

Lemma cleanup_unattached (w : World) :
  instanceRef w = None -> cleanup w = Ok (tt, w).
Proof.
  intros H. unfold cleanup, bind, osInstance, read. rewrite H. reflexivity.
Qed.

Lemma cleanup_attached (w : World) (h : nat) :
  instanceRef w = Some h ->
  cleanup w
  = Ok (tt, mkWorld (scrollRef w) (parentRef w) (scrollState w)
                    (alter release h (instances w))
                    (instanceRef w) (calls w ++ [CallDestroy h])).
Proof.
  destruct w as [s p st insts ref cs]. cbn [instanceRef].
  intros ->. reflexivity.
Qed.

Lemma attachEffect_unset (w : World) :
  scrollRef w = None \/ parentRef w = None ->
  attachEffect w = Ok (cleanup, w).
Proof.
  destruct w as [s p st insts ref cs]. cbn [scrollRef parentRef].
  intros [->| ->]; [|destruct s]; reflexivity.
Qed.

Lemma attachEffect_held (w : World) (t vp : Element) :
  scrollRef w = Some t -> parentRef w = Some vp ->
  has_valid_instance w = true ->
  attachEffect w = Ok (cleanup, log (CallInitialize t vp) w).
Proof.
  destruct w as [s p st insts ref cs]. cbn [scrollRef parentRef].
  intros -> -> Hvalid. unfold attachEffect, bind, read.
  cbn [scrollRef parentRef truthy andb]. unfold initialize.
  rewrite Hvalid. reflexivity.
Qed.

Lemma attachEffect_fresh (w : World) (t vp : Element) :
  scrollRef w = Some t -> parentRef w = Some vp ->
  has_valid_instance w = false ->
  attachEffect w
  = Ok (cleanup, mkWorld (scrollRef w) (parentRef w) (scrollState w)
                         (instances w ++ [mkInstance t vp false])
                         (Some (length (instances w)))
                         (calls w ++ [CallInitialize t vp])).
Proof.
  destruct w as [s p st insts ref cs]. cbn [scrollRef parentRef].
  intros -> -> Hvalid. unfold attachEffect, bind, read.
  cbn [scrollRef parentRef truthy andb]. unfold initialize.
  rewrite Hvalid. reflexivity.
Qed.

Lemma fresh_instance_is_valid (w : World) (i : OsInstance) :
  live i = true ->
  has_valid_instance
    (mkWorld (scrollRef w) (parentRef w) (scrollState w)
             (instances w ++ [i]) (Some (length (instances w))) (calls w))
  = true.
Proof.
  intros Hlive. unfold has_valid_instance. cbn [instanceRef instances].
  rewrite lookup_app_r by reflexivity.
  rewrite Nat.sub_diag. exact Hlive.
Qed.

Lemma released_store_has_no_valid_instance (w : World) :
  surviving w = [] -> has_valid_instance w = false.
Proof.
  unfold surviving, has_valid_instance. intros Hnone.
  destruct (instanceRef w) as [h|]; [|reflexivity].
  destruct (instances w !! h) as [i|] eqn:Hi; [|reflexivity].
  destruct (live i) eqn:Hlive; [|reflexivity].
  assert (Hin : i ∈ filter (fun i => live i = true) (instances w)).
  { apply list_elem_of_filter. split; [exact Hlive|].
    eapply list_elem_of_lookup_2. exact Hi. }
  rewrite Hnone in Hin. apply elem_of_nil in Hin. destruct Hin.
Qed.

(** A cycle that starts with both refs set and every earlier instance
    released (a re-run of the effect on the same hook state) attaches a new
    instance, releases exactly that one, and again leaves no survivor. *)
Lemma cycle_from_released
    (w : World) (t vp : Element) (es : list ScrollEvent) :
  scrollRef w = Some t -> parentRef w = Some vp ->
  surviving w = [] ->
  exists w',
    lifecycle es w = Ok (tt, w') /\
    scrollRef w' = Some t /\ parentRef w' = Some vp /\
    surviving w' = [] /\
    calls w'
    = calls w ++ [CallInitialize t vp; CallDestroy (length (instances w))].
Proof.
  intros Hs Hp Hnone. unfold lifecycle, bind at 1.
  rewrite (attachEffect_fresh w t vp Hs Hp)
    by (apply released_store_has_no_valid_instance; exact Hnone).
  unfold bind. rewrite dispatch_all_spec.
  erewrite cleanup_attached by reflexivity.
  eexists. split; [reflexivity|].
  cbn [scrollRef parentRef instances calls].
  split; [exact Hs|]. split; [exact Hp|]. split.
  - unfold surviving in *. cbn [instances].
    replace (length (instances w)) with (length (instances w) + 0)%nat by lia.
    rewrite alter_app_r, filter_app, Hnone. reflexivity.
  - rewrite <- app_assoc. reflexivity.
Qed.

(** C5. When the attach effect runs with the host ref or the viewport ref
    unset, initialization is skipped entirely (the world is left as it was)
    and nothing is raised; [initialize] is invoked, once and with the two
    elements, exactly when both refs are set. The effect always returns the
    cleanup. *)
Theorem attach_guard (w : World) :
  exists w',
    attachEffect w = Ok (cleanup, w') /\
    match scrollRef w, parentRef w with
    | Some t, Some vp =>
        calls w' = calls w ++ [CallInitialize t vp] /\
        has_valid_instance w' = true
    | _, _ => w' = w
    end.
Proof.
  destruct (scrollRef w) as [t|] eqn:Hs; [destruct (parentRef w) as [vp|] eqn:Hp|].
  - destruct (has_valid_instance w) eqn:Hvalid.
    + rewrite (attachEffect_held w t vp Hs Hp Hvalid).
      eexists. split; [reflexivity|]. split; [reflexivity|].
      destruct w; exact Hvalid.
    + rewrite (attachEffect_fresh w t vp Hs Hp Hvalid).
      eexists. split; [reflexivity|]. split; [reflexivity|].
      apply (fresh_instance_is_valid
               (mkWorld (scrollRef w) (parentRef w) (scrollState w)
                        (instances w) (instanceRef w)
                        (calls w ++ [CallInitialize t vp]))).
      reflexivity.
  - rewrite attachEffect_unset by (right; exact Hp). eauto.
  - rewrite attachEffect_unset by (left; exact Hs). eauto.
Qed.

(** C6. In every mount/unmount cycle the teardown releases what the attach
    acquired: when both refs were set, [initialize] and then [destroy()]
    are each invoked exactly once and the one instance ends up released;
    when a ref was unset, nothing was attached, [osInstance()] is unset and
    the optional call does nothing. In both cases nothing is raised and no
    overlay instance survives. *)
Theorem teardown_releases_overlay
    (s p : option Element) (es : list ScrollEvent) :
  exists w',
    lifecycle es (mount s p) = Ok (tt, w') /\
    surviving w' = [] /\
    destroy_count w' = initialize_count w' /\
    match s, p with
    | Some t, Some vp =>
        calls w' = [CallInitialize t vp; CallDestroy 0] /\
        instances w' = [mkInstance t vp true]
    | _, _ =>
        calls w' = [] /\ instances w' = []
    end.
Proof.
  unfold lifecycle, bind at 1.
  destruct s as [t|]; [destruct p as [vp|]|].
  - rewrite (attachEffect_fresh (mount (Some t) (Some vp)) t vp)
      by reflexivity.
    unfold bind. rewrite dispatch_all_spec.
    erewrite cleanup_attached by reflexivity.
    eexists. split; [reflexivity|]. repeat split.
  - rewrite attachEffect_unset by (right; reflexivity).
    unfold bind. rewrite dispatch_all_spec.
    rewrite cleanup_unattached by reflexivity.
    eexists. split; [reflexivity|]. repeat split.
  - rewrite attachEffect_unset by (left; reflexivity).
    unfold bind. rewrite dispatch_all_spec.
    rewrite cleanup_unattached by reflexivity.
    eexists. split; [reflexivity|]. repeat split.
Qed.

End OverlayFacts.


(** * Further properties of the render loop and of the lifecycle *)

(** ** When the render loop succeeds *)

Lemma Array_get_defined_in_range {A} (l : list A) (i : Z) :
  is_Some (Array_get l i) -> 0 <= i < Z.of_nat (length l).
Proof.
  unfold Array_get. destruct (Z.ltb_spec i 0) as [Hneg|Hpos].
  - intros [x Hx]. discriminate.
  - intros Hsome. apply lookup_lt_is_Some in Hsome. lia.
Qed.

(** What one iteration of the loop mounts for an item. *)
Lemma renderRow_ok rows it t :
  renderRow rows it = Ok t <->
  exists row,
    Array_get rows (index it) = Some row /\
    t = DataTr (id row) rowHeight
               (map (fun cell => mkTd (cell_id cell) (cell_content cell))
                    (getVisibleCells row)).
Proof.
  unfold renderRow. split.
  - destruct (Array_get rows (index it)) as [row|]; [|discriminate].
    intros [= <-]. eauto.
  - intros (row & -> & ->). reflexivity.
Qed.

Lemma renderRow_throw rows it e :
  renderRow rows it = Throw e ->
  e = TypeError "row is undefined" /\ ~ in_range (length rows) it.
Proof.
  unfold renderRow. destruct (Array_get rows (index it)) as [row|] eqn:Hget;
    [discriminate|].
  intros [= <-]. split; [reflexivity|].
  intros Hr. destruct (Array_get_in_range rows (index it) Hr) as [row Hrow].
  congruence.
Qed.

Lemma Array_map_renderRow_rows rows its body :
  Array_map (renderRow rows) its = Ok body ->
  Forall2 (fun it t => renderRow rows it = Ok t) its body.
Proof.
  revert body. induction its as [|it its IH]; intros body; cbn [Array_map].
  - intros [= <-]. constructor.
  - destruct (renderRow rows it) as [t|e] eqn:Ht; cbn [rbind]; [|discriminate].
    destruct (Array_map (renderRow rows) its) as [ts|e]; cbn [rbind]; [|discriminate].
    intros [= <-]. constructor; [exact Ht|apply IH; reflexivity].
Qed.

Lemma Array_map_renderRow_throw rows its e :
  Array_map (renderRow rows) its = Throw e ->
  e = TypeError "row is undefined" /\ ~ Forall (in_range (length rows)) its.
Proof.
  induction its as [|it its IH]; cbn [Array_map]; [discriminate|].
  destruct (renderRow rows it) as [t|e'] eqn:Ht; cbn [rbind].
  - destruct (Array_map (renderRow rows) its) as [ts|e'']; cbn [rbind];
      [discriminate|].
    intros [= <-]. destruct (IH eq_refl) as [-> Hnot].
    split; [reflexivity|]. intros Hall. apply Hnot.
    exact (Forall_inv_tail Hall).
  - intros [= <-]. destruct (renderRow_throw _ _ _ Ht) as [-> Hnot].
    split; [reflexivity|]. intros Hall. apply Hnot. exact (Forall_inv Hall).
Qed.

Lemma tbody_ok_body rows v trs :
  tbody rows v = Ok trs ->
  exists body,
    Array_map (renderRow rows) (getVirtualItems v) = Ok body /\
    trs = (if 0 <? paddingTop v then [SpacerTr (paddingTop v)] else [])
          ++ body
          ++ (if 0 <? paddingBottom v then [SpacerTr (paddingBottom v)] else []).
Proof.
  unfold tbody.
  destruct (Array_map (renderRow rows) (getVirtualItems v)) as [body|e];
    cbn [rbind]; [|discriminate].
  intros [= <-]. exists body. split; [reflexivity|].
  unfold jsx_and. destruct (0 <? paddingTop v), (0 <? paddingBottom v); reflexivity.
Qed.

(** X1. The body is rendered exactly when every virtual item indexes an
    existing row; in every other case the render loop raises the
    [TypeError] of reading [id] on [undefined], and nothing is mounted. *)
Theorem render_succeeds_iff_in_range (rows : list Row) (v : Virtualizer) :
  (Forall (in_range (length rows)) (getVirtualItems v)
   <-> exists trs, tbody rows v = Ok trs) /\
  ((exists trs, tbody rows v = Ok trs) \/
   tbody rows v = Throw (TypeError "row is undefined")).
Proof.
  unfold tbody.
  destruct (Array_map (renderRow rows) (getVirtualItems v)) as [body|e] eqn:Hb;
    cbn [rbind].
  - split; [|left; eauto]. split; [eauto|]. intros _.
    apply Array_map_renderRow_rows in Hb.
    induction Hb as [|it t its body Ht _ IH]; constructor; [|exact IH].
    apply renderRow_ok in Ht as (row & Hrow & _).
    apply Array_get_defined_in_range. eauto.
  - destruct (Array_map_renderRow_throw _ _ _ Hb) as [-> Hnot].
    split; [|right; reflexivity]. split.
    + intros Hall. destruct (Hnot Hall).
    + intros [trs Htrs]. discriminate.
Qed.

Lemma data_rows_of_body (top body bottom : list Tr) :
  Forall (fun t => is_spacer t = true) top ->
  Forall (fun t => is_spacer t = false) body ->
  Forall (fun t => is_spacer t = true) bottom ->
  data_rows (top ++ body ++ bottom) = body.
Proof.
  intros Htop Hbody Hbottom. unfold data_rows. rewrite !filter_app.
  assert (Hdrop : forall ts, Forall (fun t => is_spacer t = true) ts ->
                             filter (fun t => is_spacer t = false) ts = []).
  { induction 1 as [|t ts Ht _ IH]; [reflexivity|].
    rewrite filter_cons_False by congruence. exact IH. }
  assert (Hkeep : forall ts, Forall (fun t => is_spacer t = false) ts ->
                             filter (fun t => is_spacer t = false) ts = ts).
  { induction 1 as [|t ts Ht _ IH]; [reflexivity|].
    rewrite filter_cons_True by exact Ht. f_equal. exact IH. }
  rewrite (Hdrop top Htop), (Hdrop bottom Hbottom), (Hkeep body Hbody).
  cbn [app]. apply app_nil_r.
Qed.

Lemma optional_spacer_is_spacer (p : Z) :
  Forall (fun t => is_spacer t = true)
         (if 0 <? p then [SpacerTr p] else []).
Proof. destruct (0 <? p); repeat constructor. Qed.

Lemma tbody_data_rows rows v trs :
  tbody rows v = Ok trs ->
  Array_map (renderRow rows) (getVirtualItems v) = Ok (data_rows trs).
Proof.
  intros Hrender. destruct (tbody_ok_body rows v trs Hrender) as (body & Hb & ->).
  rewrite data_rows_of_body; [exact Hb| | |]; try apply optional_spacer_is_spacer.
  exact (proj2 (Array_map_renderRow _ _ _ Hb)).
Qed.

(** X2. The data rows mounted in the body follow the window one to one and in
    order: the row mounted for a virtual item is the one built from
    [rows[virtualRow.index]], keyed by that row's [id], 35 pixels high, with
    one cell per visible cell of the row. *)
Theorem rendered_rows_follow_window
    (rows : list Row) (v : Virtualizer) (trs : list Tr) :
  tbody rows v = Ok trs ->
  Forall2
    (fun it t =>
       exists row,
         Array_get rows (index it) = Some row /\
         t = DataTr (id row) 35
                    (map (fun cell => mkTd (cell_id cell) (cell_content cell))
                         (getVisibleCells row)))
    (getVirtualItems v) (data_rows trs).
Proof.
  intros Hrender. apply tbody_data_rows, Array_map_renderRow_rows in Hrender.
  eapply Forall2_impl; [exact Hrender|].
  intros it t Ht. apply renderRow_ok in Ht. exact Ht.
Qed.

Lemma rendered_rows_follow_window_witness :
  tbody sample_rows sample_window = Ok sample_body /\
  Forall2
    (fun it t =>
       exists row,
         Array_get sample_rows (index it) = Some row /\
         t = DataTr (id row) 35
                    (map (fun cell => mkTd (cell_id cell) (cell_content cell))
                         (getVisibleCells row)))
    (getVirtualItems sample_window) (data_rows sample_body).
Proof.
  split; [reflexivity|].
  apply (rendered_rows_follow_window sample_rows sample_window sample_body).
  reflexivity.
Defined.

(** ** Keys of the mounted rows *)

Lemma row_keys_app (ts1 ts2 : list Tr) :
  row_keys (ts1 ++ ts2) = row_keys ts1 ++ row_keys ts2.
Proof. unfold row_keys. apply omap_app. Qed.

Lemma row_keys_optional_spacer (p : Z) :
  row_keys (if 0 <? p then [SpacerTr p] else []) = [].
Proof. destruct (0 <? p); reflexivity. Qed.

Lemma row_keys_tbody rows v trs :
  tbody rows v = Ok trs -> row_keys trs = row_keys (data_rows trs).
Proof.
  intros Hrender. destruct (tbody_ok_body rows v trs Hrender) as (body & Hb & ->).
  rewrite data_rows_of_body; try apply optional_spacer_is_spacer;
    [|exact (proj2 (Array_map_renderRow _ _ _ Hb))].
  rewrite !row_keys_app, !row_keys_optional_spacer.
  cbn [app]. apply app_nil_r.
Qed.

(** Two lookups that find rows with the same [id] looked at the same index,
    when no two rows share an [id]. *)
Lemma same_id_same_index (rows : list Row) (i j : Z) (r1 r2 : Row) :
  NoDup (map id rows) ->
  Array_get rows i = Some r1 -> Array_get rows j = Some r2 ->
  id r1 = id r2 -> i = j.
Proof.
  intros Hnodup Hi Hj Hid. unfold Array_get in Hi, Hj.
  destruct (Z.ltb_spec i 0) as [|Hi0]; [discriminate|].
  destruct (Z.ltb_spec j 0) as [|Hj0]; [discriminate|].
  assert (Heq : Z.to_nat i = Z.to_nat j).
  { eapply (NoDup_lookup (map id rows)); [exact Hnodup| |].
    - change (map id rows) with (id <$> rows).
      rewrite list_lookup_fmap, Hi. reflexivity.
    - change (map id rows) with (id <$> rows).
      rewrite list_lookup_fmap, Hj. cbn. congruence. }
  lia.
Qed.

Lemma loop_keys_unique (rows : list Row) (its : list VirtualItem) (body : list Tr) :
  NoDup (map id rows) ->
  NoDup (map index its) ->
  Forall2 (fun it t => renderRow rows it = Ok t) its body ->
  NoDup (row_keys body) /\
  forall k, k ∈ row_keys body ->
            exists it row, it ∈ its /\ Array_get rows (index it) = Some row /\ id row = k.
Proof.
  intros Hids Hidx Hloop. induction Hloop as [|it t its body Ht _ IH].
  - split; [constructor|]. intros k Hk. apply elem_of_nil in Hk. destruct Hk.
  - apply renderRow_ok in Ht as (row & Hrow & ->).
    cbn [map] in Hidx. apply NoDup_cons in Hidx as [Hfresh Hidx].
    destruct (IH Hidx) as [Hnodup Horigin].
    unfold row_keys in *. cbn [omap tr_key]. split.
    + apply NoDup_cons. split; [|exact Hnodup].
      intros Hin. destruct (Horigin _ Hin) as (it' & row' & Hit' & Hrow' & Hid).
      apply Hfresh.
      rewrite (same_id_same_index rows _ _ row row' Hids Hrow Hrow' (eq_sym Hid)).
      apply list_elem_of_fmap. exists it'. split; [reflexivity|exact Hit'].
    + intros k Hk. apply elem_of_cons in Hk as [->|Hk].
      * exists it, row. split; [left|]. split; [exact Hrow|reflexivity].
      * destruct (Horigin _ Hk) as (it' & row' & Hit' & Hrow' & Hid).
        exists it', row'. split; [right; exact Hit'|]. split; assumption.
Qed.

(** X3. When no two rows share an [id] and no two virtual items share an
    [index], the keys of the mounted rows are pairwise distinct. *)
Theorem mounted_keys_are_unique
    (rows : list Row) (v : Virtualizer) (trs : list Tr) :
  NoDup (map id rows) ->
  NoDup (map index (getVirtualItems v)) ->
  tbody rows v = Ok trs ->
  NoDup (row_keys trs).
Proof.
  intros Hids Hidx Hrender.
  rewrite (row_keys_tbody rows v trs Hrender).
  apply tbody_data_rows, Array_map_renderRow_rows in Hrender.
  exact (proj1 (loop_keys_unique rows _ _ Hids Hidx Hrender)).
Qed.

Lemma mounted_keys_are_unique_witness :
  NoDup (map id sample_rows) /\
  NoDup (map index (getVirtualItems sample_full_window)) /\
  tbody sample_rows sample_full_window = Ok sample_full_body /\
  row_keys sample_full_body = ["0"; "1"; "2"] /\
  NoDup (row_keys sample_full_body).
Proof.
  assert (Hids : NoDup (map id sample_rows)).
  { apply (bool_decide_unpack _). vm_compute. exact I. }
  assert (Hidx : NoDup (map index (getVirtualItems sample_full_window))).
  { apply (bool_decide_unpack _). vm_compute. exact I. }
  split; [exact Hids|]. split; [exact Hidx|]. split; [reflexivity|].
  split; [reflexivity|].
  apply (mounted_keys_are_unique sample_rows sample_full_window sample_full_body
           Hids Hidx).
  reflexivity.
Defined.

(** A table in which two rows share an [id] mounts a duplicate key as soon as
    both are in the window. *)
Example duplicate_ids_give_duplicate_keys :
  let rows := [mkRow "a" []; mkRow "a" []] in
  let v := mkVirtualizer (fixed_window 0 2) 70 in
  exists trs, tbody rows v = Ok trs /\ ~ NoDup (row_keys trs).
Proof.
  eexists. split; [reflexivity|].
  intros Hnodup. apply NoDup_cons in Hnodup as [Hfresh _].
  apply Hfresh. left.
Qed.

(** ** Size of what is mounted *)

(** X4. The body mounts one data row per virtual item and at most two
    spacers, whatever the number of rows of the table. *)
Theorem mounted_rows_bounded
    (rows : list Row) (v : Virtualizer) (trs : list Tr) :
  tbody rows v = Ok trs ->
  length (data_rows trs) = length (getVirtualItems v) /\
  (length (getVirtualItems v) <= length trs)%nat /\
  (length trs <= length (getVirtualItems v) + 2)%nat.
Proof.
  intros Hrender.
  pose proof (tbody_data_rows rows v trs Hrender) as Hdata.
  apply Array_map_renderRow in Hdata as [Hlen _].
  destruct (tbody_ok_body rows v trs Hrender) as (body & Hb & ->).
  apply Array_map_renderRow in Hb as [Hlenb _].
  split; [exact Hlen|]. rewrite !length_app, Hlenb.
  destruct (0 <? paddingTop v), (0 <? paddingBottom v); cbn [length]; lia.
Qed.

Lemma mounted_rows_bounded_witness :
  tbody sample_rows sample_window = Ok sample_body /\
  length (data_rows sample_body) = length (getVirtualItems sample_window) /\
  (length (getVirtualItems sample_window) <= length sample_body)%nat /\
  (length sample_body <= length (getVirtualItems sample_window) + 2)%nat.
Proof.
  split; [reflexivity|].
  apply (mounted_rows_bounded sample_rows sample_window sample_body).
  reflexivity.
Defined.

(** X5. For a non-empty window, whatever the sizes of its items, the layout
    fills the track exactly when the window spans 35 pixels per rendered row:
    the two paddings always bracket the window, and the rows are mounted at
    the fixed height. *)
Theorem layout_fills_iff_span
    (first : VirtualItem) (rest : list VirtualItem) (total : Z) :
  let v := mkVirtualizer (first :: rest) total in
  paddingTop v + (end_ (List.last rest first) - start first) + paddingBottom v
  = total /\
  (layoutHeight v = total
   <-> end_ (List.last rest first) - start first
       = Z.of_nat (length (first :: rest)) * 35).
Proof.
  cbn zeta. unfold layoutHeight.
  rewrite paddingTop_cons, paddingBottom_cons.
  cbn [getVirtualItems]. unfold rowHeight. split; [lia|]. split; lia.
Qed.

(** A window of two 50-pixel items: the paddings bracket it, yet the layout
    is 30 pixels short of the track. *)
Example taller_items_leave_a_gap :
  let v := mkVirtualizer [mkItem 0 0 50; mkItem 1 50 100] 100 in
  paddingTop v = 0 /\ paddingBottom v = 0 /\ layoutHeight v = 70.
Proof. repeat split. Qed.

(** X6. Height of the mounted body: each padding counts only when positive,
    since no spacer is mounted for a padding that is zero or negative. *)
Theorem mounted_height
    (rows : list Row) (v : Virtualizer) (trs : list Tr) :
  tbody rows v = Ok trs ->
  stacked_height trs
  = Z.max 0 (paddingTop v)
    + Z.of_nat (length (getVirtualItems v)) * 35
    + Z.max 0 (paddingBottom v).
Proof.
  intros Hrender. destruct (tbody_ok_body rows v trs Hrender) as (body & Hb & ->).
  rewrite !stacked_height_app, (Array_map_renderRow_height _ _ _ Hb).
  unfold rowHeight.
  destruct (Z.ltb_spec 0 (paddingTop v)), (Z.ltb_spec 0 (paddingBottom v));
    cbn [stacked_height foldr tr_height]; lia.
Qed.

Lemma mounted_height_witness :
  tbody sample_rows sample_window = Ok sample_body /\
  stacked_height sample_body
  = Z.max 0 (paddingTop sample_window)
    + Z.of_nat (length (getVirtualItems sample_window)) * 35
    + Z.max 0 (paddingBottom sample_window).
Proof.
  split; [reflexivity|].
  apply (mounted_height sample_rows sample_window sample_body).
  reflexivity.
Defined.

(** X7. For a non-empty window of contiguous 35-pixel items that lies inside
    the track, the mounted body, spacers included, is exactly as high as the
    track. *)
Theorem mounted_body_fills_track
    (rows : list Row) (v : Virtualizer) (trs : list Tr)
    (first : VirtualItem) (rest : list VirtualItem) :
  getVirtualItems v = first :: rest ->
  uniform_items (getVirtualItems v) ->
  contiguous (getVirtualItems v) ->
  0 <= start first ->
  end_ (List.last rest first) <= getTotalSize v ->
  tbody rows v = Ok trs ->
  stacked_height trs = getTotalSize v.
Proof.
  destruct v as [its total]. cbn [getVirtualItems getTotalSize].
  intros -> Hu Hc Hlo Hhi Hrender.
  rewrite (rendered_height rows _ trs Hrender).
  - unfold layoutHeight. rewrite paddingTop_cons, paddingBottom_cons.
    cbn [getVirtualItems]. rewrite (window_span first rest Hu Hc).
    unfold rowHeight, estimateSize. lia.
  - rewrite paddingTop_cons. exact Hlo.
  - rewrite paddingBottom_cons. lia.
Qed.

Lemma mounted_body_fills_track_witness :
  getVirtualItems sample_window = [mkItem 1 35 70] /\
  uniform_items (getVirtualItems sample_window) /\
  contiguous (getVirtualItems sample_window) /\
  0 <= start (mkItem 1 35 70) /\
  end_ (List.last [] (mkItem 1 35 70)) <= getTotalSize sample_window /\
  tbody sample_rows sample_window = Ok sample_body /\
  stacked_height sample_body = getTotalSize sample_window.
Proof.
  assert (Hu : uniform_items (getVirtualItems sample_window)).
  { apply fixed_window_uniform. }
  assert (Hc : contiguous (getVirtualItems sample_window)).
  { apply fixed_window_contiguous. }
  assert (Hlo : 0 <= start (mkItem 1 35 70)) by (cbn; lia).
  assert (Hhi : end_ (List.last [] (mkItem 1 35 70)) <= getTotalSize sample_window).
  { vm_compute. discriminate. }
  repeat (split; [first [reflexivity|assumption]|]).
  apply (mounted_body_fills_track sample_rows sample_window sample_body
           (mkItem 1 35 70) [] eq_refl Hu Hc Hlo Hhi).
  reflexivity.
Defined.

(** X8. For a non-empty window, the body starts with a spacer exactly when
    the first item does not start at the top of the track, and ends with one
    exactly when the last item ends before the end of the track. *)
Theorem spacers_at_track_edges
    (rows : list Row) (v : Virtualizer) (trs : list Tr)
    (first : VirtualItem) (rest : list VirtualItem) :
  getVirtualItems v = first :: rest ->
  tbody rows v = Ok trs ->
  (0 < start first <-> head trs = Some (SpacerTr (start first))) /\
  (end_ (List.last rest first) < getTotalSize v
   <-> last trs
       = Some (SpacerTr (getTotalSize v - end_ (List.last rest first)))).
Proof.
  destruct v as [its total]. cbn [getVirtualItems getTotalSize].
  intros -> Hrender.
  destruct (tbody_shape rows _ trs Hrender) as (body & Hlen & Hdata & ->).
  rewrite paddingTop_cons, paddingBottom_cons.
  assert (Hne : body = [] ->
                start first = 0 /\ total - end_ (List.last rest first) = 0).
  { intros ->. cbn in Hlen. discriminate. }
  split.
  - apply leading_spacer_iff; assumption.
  - rewrite <- (trailing_spacer_iff (start first) _ body Hdata Hne). lia.
Qed.

Lemma spacers_at_track_edges_witness :
  getVirtualItems sample_window = [mkItem 1 35 70] /\
  tbody sample_rows sample_window = Ok sample_body /\
  (0 < start (mkItem 1 35 70)
   <-> head sample_body = Some (SpacerTr (start (mkItem 1 35 70)))) /\
  (end_ (List.last [] (mkItem 1 35 70)) < getTotalSize sample_window
   <-> last sample_body
       = Some (SpacerTr (getTotalSize sample_window
                         - end_ (List.last [] (mkItem 1 35 70))))).
Proof.
  split; [reflexivity|]. split; [reflexivity|].
  apply (spacers_at_track_edges sample_rows sample_window sample_body
           (mkItem 1 35 70) [] eq_refl).
  reflexivity.
Defined.

(** ** Rows outside the window *)

Lemma Array_map_agree {A B} (f g : A -> Result B) (l : list A) :
  Forall (fun x => f x = g x) l -> Array_map f l = Array_map g l.
Proof.
  induction 1 as [|x l Hx _ IH]; [reflexivity|].
  cbn [Array_map]. rewrite Hx, IH. reflexivity.
Qed.

(** X10. The body depends on the table only through the rows the window
    indexes: two tables that agree at every virtual item's index render the
    same body, or fail alike, whatever their other rows are. *)
Theorem rendering_reads_only_the_window
    (rows1 rows2 : list Row) (v : Virtualizer) :
  Forall (fun it => Array_get rows1 (index it) = Array_get rows2 (index it))
         (getVirtualItems v) ->
  tbody rows1 v = tbody rows2 v.
Proof.
  intros Hagree. unfold tbody.
  rewrite (Array_map_agree (renderRow rows1) (renderRow rows2)); [reflexivity|].
  eapply Forall_impl; [exact Hagree|].
  intros it Hit. unfold renderRow. rewrite Hit. reflexivity.
Qed.

Lemma rendering_reads_only_the_window_witness :
  let longer := sample_rows ++ [mkRow "3" [mkCell "3_firstName" "Dee"]] in
  Forall (fun it => Array_get sample_rows (index it) = Array_get longer (index it))
         (getVirtualItems sample_window) /\
  tbody sample_rows sample_window = tbody longer sample_window.
Proof.
  cbn zeta.
  assert (Hagree :
            Forall (fun it => Array_get sample_rows (index it)
                              = Array_get
                                  (sample_rows
                                     ++ [mkRow "3" [mkCell "3_firstName" "Dee"]])
                                  (index it))
                   (getVirtualItems sample_window)).
  { repeat constructor. }
  split; [exact Hagree|].
  apply (rendering_reads_only_the_window
           sample_rows
           (sample_rows ++ [mkRow "3" [mkCell "3_firstName" "Dee"]])
           sample_window Hagree).
Defined.

(** ** Repeated attach/teardown cycles *)

Module OverlayCycles.
Import Overlay OverlayFacts.

Lemma lifecycle_from_released
    (w : World) (t vp : Element) (es : list ScrollEvent) :
  scrollRef w = Some t -> parentRef w = Some vp ->
  surviving w = [] ->
  lifecycle es w
  = Ok (tt, mkWorld (scrollRef w) (parentRef w)
                    (deliver_all (scrollState w) es)
                    (instances w ++ [mkInstance t vp true])
                    (Some (length (instances w)))
                    (calls w ++ [CallInitialize t vp;
                                 CallDestroy (length (instances w))])).
Proof.
  intros Hs Hp Hnone. unfold lifecycle, bind at 1.
  rewrite (attachEffect_fresh w t vp Hs Hp)
    by (apply released_store_has_no_valid_instance; exact Hnone).
  unfold bind. rewrite dispatch_all_spec.
  erewrite cleanup_attached by reflexivity.
  cbn [scrollRef parentRef scrollState instances instanceRef calls].
  replace (alter release (length (instances w))
                 (instances w ++ [mkInstance t vp false]))
    with (instances w ++ [mkInstance t vp true]).
  - rewrite <- app_assoc. reflexivity.
  - pose proof (alter_app_r release (instances w) [mkInstance t vp false] 0)
      as Halter.
    rewrite Nat.add_0_r in Halter. rewrite Halter. reflexivity.
Qed.

Lemma count_after_cycle (cs : list Call) (t vp : Element) (h : nat) :
  length (filter (fun c => is_initialize c = true)
                 (cs ++ [CallInitialize t vp; CallDestroy h]))
  = S (length (filter (fun c => is_initialize c = true) cs)) /\
  length (filter (fun c => is_destroy c = true)
                 (cs ++ [CallInitialize t vp; CallDestroy h]))
  = S (length (filter (fun c => is_destroy c = true) cs)).
Proof.
  rewrite !filter_app, !length_app. split.
  - rewrite filter_cons_True by reflexivity.
    rewrite filter_cons_False by discriminate.
    cbn [filter list_filter length]. lia.
  - rewrite filter_cons_False by discriminate.
    rewrite filter_cons_True by reflexivity.
    cbn [filter list_filter length]. lia.
Qed.

(** X9. Starting with both refs set and every earlier overlay instance
    released, [n] successive attach/teardown cycles never raise, invoke
    [initialize] and [destroy()] exactly [n] more times each, create [n]
    instances and leave none of them unreleased. *)
Theorem repeated_cycles_balance
    (n : nat) (es : list ScrollEvent) (w : World) (t vp : Element) :
  scrollRef w = Some t -> parentRef w = Some vp ->
  surviving w = [] ->
  exists w',
    cycles n es w = Ok (tt, w') /\
    surviving w' = [] /\
    initialize_count w' = (initialize_count w + n)%nat /\
    destroy_count w' = (destroy_count w + n)%nat /\
    length (instances w') = (length (instances w) + n)%nat.
Proof.
  revert w. induction n as [|n IH]; intros w Hs Hp Hnone.
  - exists w. cbn [cycles]. unfold ret.
    repeat split; first [exact Hnone | lia].
  - cbn [cycles]. unfold bind.
    rewrite (lifecycle_from_released w t vp es Hs Hp Hnone).
    match goal with
    | |- context [cycles n es ?w1] =>
        destruct (IH w1) as (w' & Hrun & Hsurv & Hinit & Hdestroy & Hlen)
    end.
    + exact Hs.
    + exact Hp.
    + unfold surviving in *. cbn [instances].
      rewrite filter_app, Hnone. reflexivity.
    + exists w'. split; [exact Hrun|]. split; [exact Hsurv|].
      unfold initialize_count, destroy_count in *.
      cbn [calls instances] in Hinit, Hdestroy, Hlen.
      destruct (count_after_cycle (calls w) t vp (length (instances w)))
        as [Hi Hd].
      rewrite Hi in Hinit. rewrite Hd in Hdestroy.
      rewrite length_app in Hlen. cbn [length] in Hlen.
      repeat split; lia.
Qed.

Lemma repeated_cycles_balance_witness :
  let w := mount (Some (mkElement 1)) (Some (mkElement 2)) in
  scrollRef w = Some (mkElement 1) /\
  parentRef w = Some (mkElement 2) /\
  surviving w = [] /\
  exists w',
    cycles 3 [scroll_to_120] w = Ok (tt, w') /\
    surviving w' = [] /\
    initialize_count w' = (initialize_count w + 3)%nat /\
    destroy_count w' = (destroy_count w + 3)%nat /\
    length (instances w') = (length (instances w) + 3)%nat.
Proof.
  cbn zeta. repeat (split; [reflexivity|]).
  apply (repeated_cycles_balance 3 [scroll_to_120]
           (mount (Some (mkElement 1)) (Some (mkElement 2)))
           (mkElement 1) (mkElement 2)); reflexivity.
Defined.

End OverlayCycles.
